(** * Skyetrain article templates: the document-assembly engine

    Shallow embedding of the two template scripts of the repository,

    - [src/skyetrain_article_template.js] (A4 page), module [A4], and
    - [src/unnamed/part_000] (6x9 inch mobile page), module [Mobile],

    together with the part of the [docx] option objects the scripts fill
    in, and the properties of the block sequence they assemble. *)

From Stdlib Require Import ZArith Lia.
From Stdlib Require Import Floats.PrimFloat Floats.FloatOps Floats.SpecFloat.
From stdpp Require Import base option list strings gmap.

Open Scope Z_scope.

(** ** JavaScript helpers *)

Module JS.

(** An optional boolean property of an object literal: [None] is a
    property that is absent ([undefined]). *)
Definition truthy (v : option bool) : bool :=
  match v with
  | Some true => true
  | _ => false
  end.

(** [v || d] for a boolean default [d]. *)
Definition or (v : option bool) (d : bool) : bool :=
  if truthy v then true else d.

(** [arr.push(x)], the array after the call. *)
Definition push {A} (arr : list A) (x : A) : list A := arr ++ [x].

(** [arr.push(...xs)]. *)
Definition push_spread {A} (arr xs : list A) : list A := arr ++ xs.

(** [arr.forEach(x => body)], where [body] updates a store of type [S]
    (here always the array being filled). *)
Definition forEach {A S} (arr : list A) (body : A -> S -> S) (s : S) : S :=
  fold_left (fun s x => body x s) arr s.

(** [Math.round] on a binary64 number: the nearest integer, ties going
    up.  A finite non-zero [x] is [n * 2^e] exactly, so that
    [floor (x + 1/2)] is [(2n + 2^(-e)) / 2^(1-e)] for [e < 0].  NaN and
    the infinities, which [Math.round] returns unchanged, have no integer
    value; they are sent to [0] and do not arise from the constants of
    the scripts. *)
Definition Math_round (x : float) : Z :=
  match Prim2SF x with
  | S754_finite s m e =>
      let n := if s then Z.neg m else Z.pos m in
      if 0 <=? e then n * 2 ^ e
      else (2 * n + 2 ^ (- e)) `div` 2 ^ (1 - e)
  | _ => 0
  end.

(** The binary64 number an integer literal denotes. *)
Definition number (z : Z) : float :=
  SF2Prim (binary_normalize prec emax z 0 false).

End JS.

(** ** The [docx] option objects, as far as the scripts use them *)

Definition Buffer := list Byte.byte.

Inductive AlignmentType := CENTER | RIGHT | LEFT.
Inductive BorderStyle := SINGLE.
Inductive LevelFormat := BULLET.

(** Options of [new TextRun({...})]. *)
Record TextRunOptions := {
  r_text : string;
  r_font : string;
  r_size : Z;
  r_color : string;
  r_bold : option bool;
  r_italics : option bool;
  r_characterSpacing : option Z;
}.

(** Options of [new ImageRun({...})]. *)
Record ImageRunOptions := {
  i_data : Buffer;
  i_width : Z;
  i_height : Z;
  i_type : string;
}.

Inductive Run :=
  | TextRun (o : TextRunOptions)
  | ImageRun (o : ImageRunOptions).

Record SpacingOptions := {
  s_before : option Z;
  s_after : option Z;
  s_line : option Z;
}.

Record BorderOptions := {
  b_style : BorderStyle;
  b_size : Z;
  b_color : string;
  b_space : Z;
}.

Record BordersOptions := {
  b_top : option BorderOptions;
  b_bottom : option BorderOptions;
  b_left : option BorderOptions;
}.

Record IndentOptions := {
  ind_left : option Z;
  ind_hanging : option Z;
}.

Record NumberingRef := {
  n_reference : string;
  n_level : Z;
}.

(** Options of [new Paragraph({...})]; a block of the document. *)
Record Paragraph := {
  p_alignment : option AlignmentType;
  p_spacing : option SpacingOptions;
  p_border : option BordersOptions;
  p_indent : option IndentOptions;
  p_keepNext : option bool;
  p_keepLines : option bool;
  p_widowControl : option bool;
  p_numbering : option NumberingRef;
  p_children : list Run;
}.

Record LevelOptions := {
  l_level : Z;
  l_format : LevelFormat;
  l_text : string;
  l_alignment : AlignmentType;
  l_indent : IndentOptions;
}.

Record NumberingConfig := {
  nc_reference : string;
  nc_levels : list LevelOptions;
}.

Record PageOptions := {
  pg_width : Z;
  pg_height : Z;
  pg_top : Z;
  pg_right : Z;
  pg_bottom : Z;
  pg_left : Z;
}.

Record DocSection := {
  ds_page : PageOptions;
  ds_header : list Paragraph;
  ds_footer : list Paragraph;
  ds_children : list Paragraph;
}.

(** Options of [new Document({...})]. *)
Record Document := {
  d_numbering : list NumberingConfig;
  d_default_font : string;
  d_default_size : Z;
  d_sections : list DocSection;
}.

#[global] Instance AlignmentType_eq_dec : EqDecision AlignmentType.
Proof. solve_decision. Defined.
#[global] Instance BorderStyle_eq_dec : EqDecision BorderStyle.
Proof. solve_decision. Defined.
#[global] Instance Byte_eq_dec : EqDecision Byte.byte.
Proof. intros x y. destruct (Byte.byte_eq_dec x y); [left | right]; done. Defined.
#[global] Instance TextRunOptions_eq_dec : EqDecision TextRunOptions.
Proof. solve_decision. Defined.
#[global] Instance ImageRunOptions_eq_dec : EqDecision ImageRunOptions.
Proof. solve_decision. Defined.
#[global] Instance Run_eq_dec : EqDecision Run.
Proof. solve_decision. Defined.
#[global] Instance SpacingOptions_eq_dec : EqDecision SpacingOptions.
Proof. solve_decision. Defined.
#[global] Instance BorderOptions_eq_dec : EqDecision BorderOptions.
Proof. solve_decision. Defined.
#[global] Instance BordersOptions_eq_dec : EqDecision BordersOptions.
Proof. solve_decision. Defined.
#[global] Instance IndentOptions_eq_dec : EqDecision IndentOptions.
Proof. solve_decision. Defined.
#[global] Instance NumberingRef_eq_dec : EqDecision NumberingRef.
Proof. solve_decision. Defined.
#[global] Instance Paragraph_eq_dec : EqDecision Paragraph.
Proof. solve_decision. Defined.

(** ** The content description (the CONTENT section of the scripts) *)

(** A text span [{ text, bold, italics }]; the flags are optional. *)
Record Span := {
  text : string;
  bold : option bool;
  italics : option bool;
}.

(** A section object.  Everything but the heading is tested for
    presence by [buildSection]; [None] is an absent property. *)
Record ArticleSection := {
  heading : string;
  paragraphs : option (list (list Span));
  bullets : option (list string);
  after : option (list (list Span));
  bullets2 : option (list string);
  after2 : option (list (list Span));
}.

Record Content := {
  title : string;
  subtitle : string;
  author : string;
  sections : list ArticleSection;
}.

(** ** The file system and console the scripts run against *)

Inductive Error :=
  | ENOENT (path : string).

Record World := {
  files : gmap string Buffer;
  console : list string;
}.

(** [fs.readFileSync(path)]: the bytes of the file, or a thrown error. *)
Definition readFileSync (path : string) (w : World) : Error + Buffer :=
  match files w !! path with
  | Some data => inr data
  | None => inl (ENOENT path)
  end.

(** [fs.writeFileSync(path, buffer)]. *)
Definition writeFileSync (path : string) (buffer : Buffer) (w : World) : World :=
  {| files := <[path := buffer]> (files w); console := console w |}.

(** [console.log(line)]. *)
Definition console_log (line : string) (w : World) : World :=
  {| files := files w; console := console w ++ [line] |}.

(** The top-level [const] bindings a script assigns while it runs;
    [None] is a binding that has not been initialised yet. *)
Record Globals := {
  g_logoData : option Buffer;
  g_children : option (list Paragraph);
  g_doc : option Document;
}.

Definition no_globals : Globals :=
  {| g_logoData := None; g_children := None; g_doc := None |}.

Inductive Completion :=
  | Normal
  | Throw (e : Error).

(** A top-level statement: it completes normally or throws, and updates
    the world and the bindings. *)
Definition Stmt := World -> Globals -> Completion * World * Globals.

(** Statements run in order; a throw ends the script, leaving the world
    and the bindings as they were when it was raised. *)
Fixpoint exec (prog : list Stmt) (w : World) (g : Globals)
  : Completion * World * Globals :=
  match prog with
  | [] => (Normal, w, g)
  | st :: rest =>
      match st w g with
      | (Normal, w', g') => exec rest w' g'
      | (Throw e, w', g') => (Throw e, w', g')
      end
  end.

(** ** [src/skyetrain_article_template.js]: the A4 template *)

Module A4.

Definition LOGO_PATH : string := "./SKYETRAIN_MERCH_-_SKYETRAIN_LOGO.png".
Definition OUTPUT_PATH : string := "./output.docx".

Module PALETTE.
Definition text : string := "3A3A3A".
Definition subtitle : string := "777777".
Definition heading : string := "2A2A2A".
Definition accentBlue : string := "3D4DB7".
Definition accentRed : string := "C65D4A".
End PALETTE.

Module FONTS.
Definition body : string := "Georgia".
Definition heading : string := "Arial".
End FONTS.

Module SIZES.
Definition body : Z := 22.
Definition heading : Z := 26.
Definition title : Z := 38.
Definition subtitle : Z := 20.
Definition meta : Z := 16.
End SIZES.

Module SPACING.
Definition bodyAfter : Z := 180.
Definition bodyLine : Z := 336.
Definition bulletAfter : Z := 80.
Definition sectionBefore : Z := 600.
Definition sectionAfter : Z := 180.
Definition titleBlockEnd : Z := 480.
End SPACING.

(** The sample [content] the script ships with. *)
Definition content : Content :=
  {| title := "ARTICLE TITLE HERE";
     subtitle := "One-line description of the article";
     author := "Skye Boyland";
     sections :=
       [ {| heading := "First section heading";
            paragraphs :=
              Some [ [ {| text := "First paragraph content.";
                          bold := None; italics := None |} ] ];
            bullets := None; after := None;
            bullets2 := None; after2 := None |} ] |}.

Definition LOGO_ASPECT : float := (466 / 2000)%float.
Definition LOGO_DISPLAY_W : Z := 180.
Definition LOGO_DISPLAY_H : Z :=
  JS.Math_round (JS.number LOGO_DISPLAY_W * LOGO_ASPECT)%float.

Definition makeRuns (spans : list Span) : list Run :=
  map (fun s => TextRun
    {| r_text := text s;
       r_font := if JS.truthy (bold s) then FONTS.heading else FONTS.body;
       r_size := SIZES.body;
       r_color := PALETTE.text;
       r_bold := Some (JS.or (bold s) false);
       r_italics := Some (JS.or (italics s) false);
       r_characterSpacing := None |}) spans.

Definition bodyP (spans : list Span) : Paragraph :=
  {| p_alignment := None;
     p_spacing := Some {| s_before := None;
                          s_after := Some SPACING.bodyAfter;
                          s_line := Some SPACING.bodyLine |};
     p_border := None;
     p_indent := None;
     p_keepNext := None;
     p_keepLines := None;
     p_widowControl := Some true;
     p_numbering := None;
     p_children := makeRuns spans |}.

Definition bulletP (text : string) : Paragraph :=
  {| p_alignment := None;
     p_spacing := Some {| s_before := None;
                          s_after := Some SPACING.bulletAfter;
                          s_line := Some SPACING.bodyLine |};
     p_border := None;
     p_indent := None;
     p_keepNext := None;
     p_keepLines := None;
     p_widowControl := None;
     p_numbering := Some {| n_reference := "mainBullets"; n_level := 0 |};
     p_children :=
       [ TextRun {| r_text := text; r_font := FONTS.body;
                    r_size := SIZES.body; r_color := PALETTE.text;
                    r_bold := None; r_italics := None;
                    r_characterSpacing := None |} ] |}.

Definition sectionHeading (text : string) : Paragraph :=
  {| p_alignment := None;
     p_spacing := Some {| s_before := Some SPACING.sectionBefore;
                          s_after := Some SPACING.sectionAfter;
                          s_line := None |};
     p_border :=
       Some {| b_top := None; b_bottom := None;
               b_left := Some {| b_style := SINGLE; b_size := 14;
                                 b_color := PALETTE.accentBlue;
                                 b_space := 10 |} |};
     p_indent := Some {| ind_left := Some 240; ind_hanging := None |};
     p_keepNext := Some true;
     p_keepLines := Some true;
     p_widowControl := None;
     p_numbering := None;
     p_children :=
       [ TextRun {| r_text := text; r_font := FONTS.heading;
                    r_size := SIZES.heading; r_color := PALETTE.heading;
                    r_bold := Some true; r_italics := None;
                    r_characterSpacing := None |} ] |}.

(** [spacer(after = 100)]; [None] is a call without the argument. *)
Definition spacer (after : option Z) : Paragraph :=
  let after := default 100 after in
  {| p_alignment := None;
     p_spacing := Some {| s_before := None; s_after := Some after;
                          s_line := None |};
     p_border := None;
     p_indent := None;
     p_keepNext := None;
     p_keepLines := None;
     p_widowControl := None;
     p_numbering := None;
     p_children := [] |}.

Definition buildSection (sec : ArticleSection) : list Paragraph :=
  let parts := [] in
  let parts := JS.push parts (sectionHeading (heading sec)) in
  let parts :=
    match paragraphs sec with
    | Some ps => JS.forEach ps (fun p parts => JS.push parts (bodyP p)) parts
    | None => parts
    end in
  let parts :=
    match bullets sec with
    | Some bs => JS.forEach bs (fun b parts => JS.push parts (bulletP b)) parts
    | None => parts
    end in
  let parts :=
    match after sec with
    | Some ps =>
        let parts := JS.push parts (spacer (Some 60)) in
        JS.forEach ps (fun p parts => JS.push parts (bodyP p)) parts
    | None => parts
    end in
  let parts :=
    match bullets2 sec with
    | Some bs => JS.forEach bs (fun b parts => JS.push parts (bulletP b)) parts
    | None => parts
    end in
  let parts :=
    match after2 sec with
    | Some ps =>
        let parts := JS.push parts (spacer (Some 60)) in
        JS.forEach ps (fun p parts => JS.push parts (bodyP p)) parts
    | None => parts
    end in
  parts.

(** The title block, the value [children] is initialised with. *)
Definition children_init (logoData : Buffer) (content : Content)
  : list Paragraph :=
  [ {| p_alignment := Some CENTER;
       p_spacing := Some {| s_before := Some 200; s_after := Some 360;
                            s_line := None |};
       p_border := None; p_indent := None; p_keepNext := None;
       p_keepLines := None; p_widowControl := None; p_numbering := None;
       p_children :=
         [ ImageRun {| i_data := logoData; i_width := LOGO_DISPLAY_W;
                       i_height := LOGO_DISPLAY_H; i_type := "png" |} ] |};
    {| p_alignment := Some CENTER;
       p_spacing := Some {| s_before := Some 60; s_after := Some 240;
                            s_line := None |};
       p_border := None; p_indent := None; p_keepNext := None;
       p_keepLines := None; p_widowControl := None; p_numbering := None;
       p_children :=
         [ TextRun {| r_text := title content; r_font := FONTS.heading;
                      r_size := SIZES.title; r_color := PALETTE.heading;
                      r_bold := Some true; r_italics := None;
                      r_characterSpacing := Some 80 |} ] |};
    {| p_alignment := Some CENTER;
       p_spacing := Some {| s_before := None; s_after := Some 160;
                            s_line := None |};
       p_border := None; p_indent := None; p_keepNext := None;
       p_keepLines := None; p_widowControl := None; p_numbering := None;
       p_children :=
         [ TextRun {| r_text := subtitle content; r_font := FONTS.body;
                      r_size := SIZES.subtitle; r_color := PALETTE.subtitle;
                      r_bold := None; r_italics := Some true;
                      r_characterSpacing := None |} ] |};
    {| p_alignment := None;
       p_spacing := Some {| s_before := None; s_after := Some 100;
                            s_line := None |};
       p_border :=
         Some {| b_top := None;
                 b_bottom := Some {| b_style := SINGLE; b_size := 6;
                                     b_color := PALETTE.accentRed;
                                     b_space := 1 |};
                 b_left := None |};
       p_indent := None; p_keepNext := None;
       p_keepLines := None; p_widowControl := None; p_numbering := None;
       p_children := [] |};
    {| p_alignment := Some RIGHT;
       p_spacing := Some {| s_before := None;
                            s_after := Some SPACING.titleBlockEnd;
                            s_line := None |};
       p_border := None; p_indent := None; p_keepNext := None;
       p_keepLines := None; p_widowControl := None; p_numbering := None;
       p_children :=
         [ TextRun {| r_text := "by " +:+ author content;
                      r_font := FONTS.body;
                      r_size := SIZES.subtitle; r_color := PALETTE.subtitle;
                      r_bold := None; r_italics := None;
                      r_characterSpacing := None |} ] |} ].

(** [content.sections.forEach(sec => children.push(...buildSection(sec)))],
    the array after the loop. *)
Definition build_sections (content : Content) (children : list Paragraph)
  : list Paragraph :=
  JS.forEach (sections content)
    (fun sec children => JS.push_spread children (buildSection sec)) children.

(** The [children] array handed to the document: the title block with
    every section's blocks pushed after it. *)
Definition children (logoData : Buffer) (content : Content)
  : list Paragraph :=
  build_sections content (children_init logoData content).

Definition header : list Paragraph :=
  [ {| p_alignment := Some RIGHT;
       p_spacing := Some {| s_before := None; s_after := Some 80;
                            s_line := None |};
       p_border :=
         Some {| b_top := None;
                 b_bottom := Some {| b_style := SINGLE; b_size := 6;
                                     b_color := PALETTE.accentBlue;
                                     b_space := 6 |};
                 b_left := None |};
       p_indent := None; p_keepNext := None;
       p_keepLines := None; p_widowControl := None; p_numbering := None;
       p_children :=
         [ TextRun {| r_text := "SKYETRAIN"; r_font := FONTS.heading;
                      r_size := SIZES.meta; r_color := "CCCCCC";
                      r_bold := None; r_italics := None;
                      r_characterSpacing := Some 60 |} ] |} ].

Definition footer : list Paragraph :=
  [ {| p_alignment := Some CENTER;
       p_spacing := None;
       p_border :=
         Some {| b_top := Some {| b_style := SINGLE; b_size := 6;
                                  b_color := PALETTE.accentBlue;
                                  b_space := 6 |};
                 b_bottom := None;
                 b_left := None |};
       p_indent := None; p_keepNext := None;
       p_keepLines := None; p_widowControl := None; p_numbering := None;
       p_children :=
         [ TextRun {| r_text := "skyetrain.com"; r_font := FONTS.body;
                      r_size := SIZES.meta; r_color := "CCCCCC";
                      r_bold := None; r_italics := Some true;
                      r_characterSpacing := None |} ] |} ].

Definition doc (children : list Paragraph) : Document :=
  {| d_numbering :=
       [ {| nc_reference := "mainBullets";
            nc_levels :=
              [ {| l_level := 0; l_format := BULLET; l_text := "•";
                   l_alignment := LEFT;
                   l_indent := {| ind_left := Some 720;
                                  ind_hanging := Some 360 |} |} ] |} ];
     d_default_font := FONTS.body;
     d_default_size := SIZES.body;
     d_sections :=
       [ {| ds_page := {| pg_width := 11906; pg_height := 16838;
                          pg_top := 1440; pg_right := 1600;
                          pg_bottom := 1440; pg_left := 1600 |};
            ds_header := header;
            ds_footer := footer;
            ds_children := children |} ] |}.

(** The script, statement by statement, for a given CONTENT section.
    [toBuffer] is [Packer.toBuffer], the external serializer. *)
Section Script.
Variable toBuffer : Document -> Buffer.
Variable content : Content.

(** [const logoData = fs.readFileSync(LOGO_PATH);] *)
Definition read_logo : Stmt := fun w g =>
  match readFileSync LOGO_PATH w with
  | inl e => (Throw e, w, g)
  | inr data =>
      (Normal, w, {| g_logoData := Some data;
                     g_children := g_children g; g_doc := g_doc g |})
  end.

(** [const children = [ ... ];] *)
Definition init_children : Stmt := fun w g =>
  (Normal, w,
   {| g_logoData := g_logoData g;
      g_children := (fun data => children_init data content) <$> g_logoData g;
      g_doc := g_doc g |}).

(** [content.sections.forEach(...)] *)
Definition push_sections : Stmt := fun w g =>
  (Normal, w,
   {| g_logoData := g_logoData g;
      g_children := build_sections content <$> g_children g;
      g_doc := g_doc g |}).

(** [const doc = new Document({ ... });] *)
Definition make_doc : Stmt := fun w g =>
  (Normal, w,
   {| g_logoData := g_logoData g;
      g_children := g_children g;
      g_doc := doc <$> g_children g |}).

(** [Packer.toBuffer(doc).then(buffer => { ... })] *)
Definition write_output : Stmt := fun w g =>
  match g_doc g with
  | Some d =>
      (Normal,
       console_log ("Created: " +:+ OUTPUT_PATH)
         (writeFileSync OUTPUT_PATH (toBuffer d) w),
       g)
  | None => (Normal, w, g)
  end.

Definition script : list Stmt :=
  [ read_logo; init_children; push_sections; make_doc; write_output ].

Definition run (w : World) : Completion * World * Globals :=
  exec script w no_globals.
End Script.

End A4.

(** ** [src/unnamed/part_000]: the mobile (6x9 inch) template *)

Module Mobile.

Definition LOGO_PATH : string := "./SKYETRAIN_MERCH_-_SKYETRAIN_LOGO.png".
Definition OUTPUT_PATH : string := "./output_mobile.docx".

Module PALETTE.
Definition text : string := "3A3A3A".
Definition subtitle : string := "777777".
Definition heading : string := "2A2A2A".
Definition accentBlue : string := "3D4DB7".
Definition accentRed : string := "C65D4A".
End PALETTE.

Module FONTS.
Definition body : string := "Georgia".
Definition heading : string := "Arial".
End FONTS.

Module SIZES.
Definition body : Z := 22.
Definition heading : Z := 26.
Definition title : Z := 38.
Definition subtitle : Z := 20.
Definition meta : Z := 16.
End SIZES.

Module PAGE.
Definition width : Z := 8640.
Definition height : Z := 12960.
Definition marginSide : Z := 1080.
Definition marginTB : Z := 1080.
End PAGE.

Module SPACING.
Definition bodyAfter : Z := 180.
Definition bodyLine : Z := 336.
Definition bulletAfter : Z := 80.
Definition sectionBefore : Z := 600.
Definition sectionAfter : Z := 180.
Definition titleBlockEnd : Z := 400.
End SPACING.

(** The sample [content] the script ships with. *)
Definition content : Content :=
  {| title := "ARTICLE TITLE HERE";
     subtitle := "One-line description of the article";
     author := "Skye Boyland";
     sections :=
       [ {| heading := "First section heading";
            paragraphs :=
              Some [ [ {| text := "First paragraph content.";
                          bold := None; italics := None |} ] ];
            bullets := None; after := None;
            bullets2 := None; after2 := None |} ] |}.

Definition LOGO_ASPECT : float := (466 / 2000)%float.
Definition LOGO_DISPLAY_W : Z := 150.
Definition LOGO_DISPLAY_H : Z :=
  JS.Math_round (JS.number LOGO_DISPLAY_W * LOGO_ASPECT)%float.

Definition makeRuns (spans : list Span) : list Run :=
  map (fun s => TextRun
    {| r_text := text s;
       r_font := if JS.truthy (bold s) then FONTS.heading else FONTS.body;
       r_size := SIZES.body;
       r_color := PALETTE.text;
       r_bold := Some (JS.or (bold s) false);
       r_italics := Some (JS.or (italics s) false);
       r_characterSpacing := None |}) spans.

Definition bodyP (spans : list Span) : Paragraph :=
  {| p_alignment := None;
     p_spacing := Some {| s_before := None;
                          s_after := Some SPACING.bodyAfter;
                          s_line := Some SPACING.bodyLine |};
     p_border := None;
     p_indent := None;
     p_keepNext := None;
     p_keepLines := None;
     p_widowControl := Some true;
     p_numbering := None;
     p_children := makeRuns spans |}.

Definition bulletP (text : string) : Paragraph :=
  {| p_alignment := None;
     p_spacing := Some {| s_before := None;
                          s_after := Some SPACING.bulletAfter;
                          s_line := Some SPACING.bodyLine |};
     p_border := None;
     p_indent := None;
     p_keepNext := None;
     p_keepLines := None;
     p_widowControl := None;
     p_numbering := Some {| n_reference := "mainBullets"; n_level := 0 |};
     p_children :=
       [ TextRun {| r_text := text; r_font := FONTS.body;
                    r_size := SIZES.body; r_color := PALETTE.text;
                    r_bold := None; r_italics := None;
                    r_characterSpacing := None |} ] |}.

Definition sectionHeading (text : string) : Paragraph :=
  {| p_alignment := None;
     p_spacing := Some {| s_before := Some SPACING.sectionBefore;
                          s_after := Some SPACING.sectionAfter;
                          s_line := None |};
     p_border :=
       Some {| b_top := None; b_bottom := None;
               b_left := Some {| b_style := SINGLE; b_size := 14;
                                 b_color := PALETTE.accentBlue;
                                 b_space := 10 |} |};
     p_indent := Some {| ind_left := Some 240; ind_hanging := None |};
     p_keepNext := Some true;
     p_keepLines := Some true;
     p_widowControl := None;
     p_numbering := None;
     p_children :=
       [ TextRun {| r_text := text; r_font := FONTS.heading;
                    r_size := SIZES.heading; r_color := PALETTE.heading;
                    r_bold := Some true; r_italics := None;
                    r_characterSpacing := None |} ] |}.

(** [spacer(after = 100)]; [None] is a call without the argument. *)
Definition spacer (after : option Z) : Paragraph :=
  let after := default 100 after in
  {| p_alignment := None;
     p_spacing := Some {| s_before := None; s_after := Some after;
                          s_line := None |};
     p_border := None;
     p_indent := None;
     p_keepNext := None;
     p_keepLines := None;
     p_widowControl := None;
     p_numbering := None;
     p_children := [] |}.

Definition buildSection (sec : ArticleSection) : list Paragraph :=
  let parts := [] in
  let parts := JS.push parts (sectionHeading (heading sec)) in
  let parts :=
    match paragraphs sec with
    | Some ps => JS.forEach ps (fun p parts => JS.push parts (bodyP p)) parts
    | None => parts
    end in
  let parts :=
    match bullets sec with
    | Some bs => JS.forEach bs (fun b parts => JS.push parts (bulletP b)) parts
    | None => parts
    end in
  let parts :=
    match after sec with
    | Some ps =>
        let parts := JS.push parts (spacer (Some 60)) in
        JS.forEach ps (fun p parts => JS.push parts (bodyP p)) parts
    | None => parts
    end in
  let parts :=
    match bullets2 sec with
    | Some bs => JS.forEach bs (fun b parts => JS.push parts (bulletP b)) parts
    | None => parts
    end in
  let parts :=
    match after2 sec with
    | Some ps =>
        let parts := JS.push parts (spacer (Some 60)) in
        JS.forEach ps (fun p parts => JS.push parts (bodyP p)) parts
    | None => parts
    end in
  parts.

(** The title block, the value [children] is initialised with. *)
Definition children_init (logoData : Buffer) (content : Content)
  : list Paragraph :=
  [ {| p_alignment := Some CENTER;
       p_spacing := Some {| s_before := Some 120; s_after := Some 300;
                            s_line := None |};
       p_border := None; p_indent := None; p_keepNext := None;
       p_keepLines := None; p_widowControl := None; p_numbering := None;
       p_children :=
         [ ImageRun {| i_data := logoData; i_width := LOGO_DISPLAY_W;
                       i_height := LOGO_DISPLAY_H; i_type := "png" |} ] |};
    {| p_alignment := Some CENTER;
       p_spacing := Some {| s_before := Some 60; s_after := Some 200;
                            s_line := None |};
       p_border := None; p_indent := None; p_keepNext := None;
       p_keepLines := None; p_widowControl := None; p_numbering := None;
       p_children :=
         [ TextRun {| r_text := title content; r_font := FONTS.heading;
                      r_size := SIZES.title; r_color := PALETTE.heading;
                      r_bold := Some true; r_italics := None;
                      r_characterSpacing := Some 80 |} ] |};
    {| p_alignment := Some CENTER;
       p_spacing := Some {| s_before := None; s_after := Some 140;
                            s_line := None |};
       p_border := None; p_indent := None; p_keepNext := None;
       p_keepLines := None; p_widowControl := None; p_numbering := None;
       p_children :=
         [ TextRun {| r_text := subtitle content; r_font := FONTS.body;
                      r_size := SIZES.subtitle; r_color := PALETTE.subtitle;
                      r_bold := None; r_italics := Some true;
                      r_characterSpacing := None |} ] |};
    {| p_alignment := None;
       p_spacing := Some {| s_before := None; s_after := Some 80;
                            s_line := None |};
       p_border :=
         Some {| b_top := None;
                 b_bottom := Some {| b_style := SINGLE; b_size := 6;
                                     b_color := PALETTE.accentRed;
                                     b_space := 1 |};
                 b_left := None |};
       p_indent := None; p_keepNext := None;
       p_keepLines := None; p_widowControl := None; p_numbering := None;
       p_children := [] |};
    {| p_alignment := Some RIGHT;
       p_spacing := Some {| s_before := None;
                            s_after := Some SPACING.titleBlockEnd;
                            s_line := None |};
       p_border := None; p_indent := None; p_keepNext := None;
       p_keepLines := None; p_widowControl := None; p_numbering := None;
       p_children :=
         [ TextRun {| r_text := "by " +:+ author content;
                      r_font := FONTS.body;
                      r_size := SIZES.subtitle; r_color := PALETTE.subtitle;
                      r_bold := None; r_italics := None;
                      r_characterSpacing := None |} ] |} ].

(** [content.sections.forEach(sec => children.push(...buildSection(sec)))],
    the array after the loop. *)
Definition build_sections (content : Content) (children : list Paragraph)
  : list Paragraph :=
  JS.forEach (sections content)
    (fun sec children => JS.push_spread children (buildSection sec)) children.

(** The [children] array handed to the document: the title block with
    every section's blocks pushed after it. *)
Definition children (logoData : Buffer) (content : Content)
  : list Paragraph :=
  build_sections content (children_init logoData content).

Definition header : list Paragraph :=
  [ {| p_alignment := Some RIGHT;
       p_spacing := Some {| s_before := None; s_after := Some 80;
                            s_line := None |};
       p_border :=
         Some {| b_top := None;
                 b_bottom := Some {| b_style := SINGLE; b_size := 6;
                                     b_color := PALETTE.accentBlue;
                                     b_space := 6 |};
                 b_left := None |};
       p_indent := None; p_keepNext := None;
       p_keepLines := None; p_widowControl := None; p_numbering := None;
       p_children :=
         [ TextRun {| r_text := "SKYETRAIN"; r_font := FONTS.heading;
                      r_size := SIZES.meta; r_color := "CCCCCC";
                      r_bold := None; r_italics := None;
                      r_characterSpacing := Some 60 |} ] |} ].

Definition footer : list Paragraph :=
  [ {| p_alignment := Some CENTER;
       p_spacing := None;
       p_border :=
         Some {| b_top := Some {| b_style := SINGLE; b_size := 6;
                                  b_color := PALETTE.accentBlue;
                                  b_space := 6 |};
                 b_bottom := None;
                 b_left := None |};
       p_indent := None; p_keepNext := None;
       p_keepLines := None; p_widowControl := None; p_numbering := None;
       p_children :=
         [ TextRun {| r_text := "skyetrain.com"; r_font := FONTS.body;
                      r_size := SIZES.meta; r_color := "CCCCCC";
                      r_bold := None; r_italics := Some true;
                      r_characterSpacing := None |} ] |} ].

Definition doc (children : list Paragraph) : Document :=
  {| d_numbering :=
       [ {| nc_reference := "mainBullets";
            nc_levels :=
              [ {| l_level := 0; l_format := BULLET; l_text := "•";
                   l_alignment := LEFT;
                   l_indent := {| ind_left := Some 720;
                                  ind_hanging := Some 360 |} |} ] |} ];
     d_default_font := FONTS.body;
     d_default_size := SIZES.body;
     d_sections :=
       [ {| ds_page := {| pg_width := PAGE.width; pg_height := PAGE.height;
                          pg_top := PAGE.marginTB;
                          pg_right := PAGE.marginSide;
                          pg_bottom := PAGE.marginTB;
                          pg_left := PAGE.marginSide |};
            ds_header := header;
            ds_footer := footer;
            ds_children := children |} ] |}.

(** The script, statement by statement, for a given CONTENT section.
    [toBuffer] is [Packer.toBuffer], the external serializer. *)
Section Script.
Variable toBuffer : Document -> Buffer.
Variable content : Content.

(** [const logoData = fs.readFileSync(LOGO_PATH);] *)
Definition read_logo : Stmt := fun w g =>
  match readFileSync LOGO_PATH w with
  | inl e => (Throw e, w, g)
  | inr data =>
      (Normal, w, {| g_logoData := Some data;
                     g_children := g_children g; g_doc := g_doc g |})
  end.

(** [const children = [ ... ];] *)
Definition init_children : Stmt := fun w g =>
  (Normal, w,
   {| g_logoData := g_logoData g;
      g_children := (fun data => children_init data content) <$> g_logoData g;
      g_doc := g_doc g |}).

(** [content.sections.forEach(...)] *)
Definition push_sections : Stmt := fun w g =>
  (Normal, w,
   {| g_logoData := g_logoData g;
      g_children := build_sections content <$> g_children g;
      g_doc := g_doc g |}).

(** [const doc = new Document({ ... });] *)
Definition make_doc : Stmt := fun w g =>
  (Normal, w,
   {| g_logoData := g_logoData g;
      g_children := g_children g;
      g_doc := doc <$> g_children g |}).

(** [Packer.toBuffer(doc).then(buffer => { ... })] *)
Definition write_output : Stmt := fun w g =>
  match g_doc g with
  | Some d =>
      (Normal,
       console_log ("Created: " +:+ OUTPUT_PATH)
         (writeFileSync OUTPUT_PATH (toBuffer d) w),
       g)
  | None => (Normal, w, g)
  end.

Definition script : list Stmt :=
  [ read_logo; init_children; push_sections; make_doc; write_output ].

Definition run (w : World) : Completion * World * Globals :=
  exec script w no_globals.
End Script.

End Mobile.

(** ** The two presets side by side *)

(** The wide preset is the A4 script, the narrow one the 6x9 script. *)
Inductive Preset := Wide | Narrow.

(** The functions and constants of one script. *)
Record Engine := {
  e_LOGO_PATH : string;
  e_OUTPUT_PATH : string;
  e_heading_font : string;
  e_body_font : string;
  e_LOGO_DISPLAY_W : Z;
  e_LOGO_DISPLAY_H : Z;
  e_bodyP : list Span -> Paragraph;
  e_bulletP : string -> Paragraph;
  e_sectionHeading : string -> Paragraph;
  e_spacer : option Z -> Paragraph;
  e_buildSection : ArticleSection -> list Paragraph;
  e_children_init : Buffer -> Content -> list Paragraph;
  e_children : Buffer -> Content -> list Paragraph;
  e_header : list Paragraph;
  e_footer : list Paragraph;
  e_doc : list Paragraph -> Document;
  e_run : (Document -> Buffer) -> Content -> World ->
          Completion * World * Globals;
}.

Definition engine (ps : Preset) : Engine :=
  match ps with
  | Wide =>
      {| e_LOGO_PATH := A4.LOGO_PATH;
         e_OUTPUT_PATH := A4.OUTPUT_PATH;
         e_heading_font := A4.FONTS.heading;
         e_body_font := A4.FONTS.body;
         e_LOGO_DISPLAY_W := A4.LOGO_DISPLAY_W;
         e_LOGO_DISPLAY_H := A4.LOGO_DISPLAY_H;
         e_bodyP := A4.bodyP;
         e_bulletP := A4.bulletP;
         e_sectionHeading := A4.sectionHeading;
         e_spacer := A4.spacer;
         e_buildSection := A4.buildSection;
         e_children_init := A4.children_init;
         e_children := A4.children;
         e_header := A4.header;
         e_footer := A4.footer;
         e_doc := A4.doc;
         e_run := A4.run |}
  | Narrow =>
      {| e_LOGO_PATH := Mobile.LOGO_PATH;
         e_OUTPUT_PATH := Mobile.OUTPUT_PATH;
         e_heading_font := Mobile.FONTS.heading;
         e_body_font := Mobile.FONTS.body;
         e_LOGO_DISPLAY_W := Mobile.LOGO_DISPLAY_W;
         e_LOGO_DISPLAY_H := Mobile.LOGO_DISPLAY_H;
         e_bodyP := Mobile.bodyP;
         e_bulletP := Mobile.bulletP;
         e_sectionHeading := Mobile.sectionHeading;
         e_spacer := Mobile.spacer;
         e_buildSection := Mobile.buildSection;
         e_children_init := Mobile.children_init;
         e_children := Mobile.children;
         e_header := Mobile.header;
         e_footer := Mobile.footer;
         e_doc := Mobile.doc;
         e_run := Mobile.run |}
  end.

(** ** Vocabulary of the properties *)

(** What a block of the sequence is, read off the options it carries. *)
Inductive BlockKind :=
  | Logo | Title | Subtitle | Rule | Author
  | Heading | Body | Bullet | Spacer | Other.

#[global] Instance BlockKind_eq_dec : EqDecision BlockKind.
Proof. solve_decision. Defined.

Definition block_kind (p : Paragraph) : BlockKind :=
  match p_widowControl p, p_numbering p, p_keepNext p with
  | Some true, _, _ => Body
  | _, Some _, _ => Bullet
  | _, _, Some true => Heading
  | _, _, _ =>
      match p_children p with
      | [] =>
          match p_border p with
          | Some _ => Rule
          | None => Spacer
          end
      | [ImageRun _] => Logo
      | [TextRun r] =>
          match p_alignment p, r_bold r with
          | Some RIGHT, _ => Author
          | _, Some true => Title
          | _, _ => Subtitle
          end
      | _ => Other
      end
  end.

(** How many blocks of kind [k] a sequence holds. *)
Definition count_kind (k : BlockKind) (blocks : list Paragraph) : nat :=
  length (filter (fun p => block_kind p = k) blocks).

(** The blocks an optional list of a section stands for. *)
Definition blocks_of {A} (f : A -> Paragraph) (field : option (list A))
  : list Paragraph :=
  match field with
  | Some xs => map f xs
  | None => []
  end.

(** An optional [after] list: one spacer, then its paragraphs. *)
Definition spacer_then (E : Engine) (field : option (list (list Span)))
  : list Paragraph :=
  match field with
  | Some ps => e_spacer E (Some 60) :: map (e_bodyP E) ps
  | None => []
  end.

(** The fixed order of a section: heading, paragraphs, bullets,
    spacer and after, second bullets, spacer and second after. *)
Definition section_layout (E : Engine) (sec : ArticleSection)
  : list Paragraph :=
  e_sectionHeading E (heading sec)
    :: blocks_of (e_bodyP E) (paragraphs sec)
    ++ blocks_of (e_bulletP E) (bullets sec)
    ++ spacer_then E (after sec)
    ++ blocks_of (e_bulletP E) (bullets2 sec)
    ++ spacer_then E (after2 sec).

(** [1] when an optional property is present, [0] otherwise. *)
Definition present {A} (field : option A) : nat :=
  match field with
  | Some _ => 1%nat
  | None => 0%nat
  end.

(** The paragraphs built from span lists, and the bullet list items. *)
Definition span_blocks (E : Engine) (sec : ArticleSection) : list Paragraph :=
  blocks_of (e_bodyP E) (paragraphs sec)
    ++ blocks_of (e_bodyP E) (after sec)
    ++ blocks_of (e_bodyP E) (after2 sec).

Definition bullet_blocks (E : Engine) (sec : ArticleSection) : list Paragraph :=
  blocks_of (e_bulletP E) (bullets sec)
    ++ blocks_of (e_bulletP E) (bullets2 sec).

(** The text runs of a block and of a whole document. *)
Definition text_runs (p : Paragraph) : list TextRunOptions :=
  flat_map (fun r => match r with TextRun o => [o] | ImageRun _ => [] end)
           (p_children p).

Definition doc_text_runs (d : Document) : list TextRunOptions :=
  flat_map (fun s =>
      flat_map text_runs (ds_header s)
        ++ flat_map text_runs (ds_footer s)
        ++ flat_map text_runs (ds_children s))
    (d_sections d).

(** The font rule: heading font exactly for the bold runs, body font
    for all others. *)
Definition font_rule (E : Engine) (r : TextRunOptions) : Prop :=
  (r_font r = e_heading_font E <-> r_bold r = Some true)
  /\ (r_bold r <> Some true -> r_font r = e_body_font E).

(** Forgetting the geometry values of a document: the page size and
    margins, and the display size of the images. *)
Definition erase_image_size (r : Run) : Run :=
  match r with
  | TextRun o => TextRun o
  | ImageRun o =>
      ImageRun {| i_data := i_data o; i_width := 0; i_height := 0;
                  i_type := i_type o |}
  end.

Definition erase_block_geometry (p : Paragraph) : Paragraph :=
  {| p_alignment := p_alignment p;
     p_spacing := p_spacing p;
     p_border := p_border p;
     p_indent := p_indent p;
     p_keepNext := p_keepNext p;
     p_keepLines := p_keepLines p;
     p_widowControl := p_widowControl p;
     p_numbering := p_numbering p;
     p_children := map erase_image_size (p_children p) |}.

Definition no_page : PageOptions :=
  {| pg_width := 0; pg_height := 0; pg_top := 0; pg_right := 0;
     pg_bottom := 0; pg_left := 0 |}.

Definition erase_geometry (d : Document) : Document :=
  {| d_numbering := d_numbering d;
     d_default_font := d_default_font d;
     d_default_size := d_default_size d;
     d_sections :=
       map (fun s =>
              {| ds_page := no_page;
                 ds_header := ds_header s;
                 ds_footer := ds_footer s;
                 ds_children := map erase_block_geometry (ds_children s) |})
           (d_sections d) |}.

(** Forgetting, on top of that, the spacing of the five blocks of the
    title block. *)
Definition erase_spacing (p : Paragraph) : Paragraph :=
  {| p_alignment := p_alignment p;
     p_spacing := None;
     p_border := p_border p;
     p_indent := p_indent p;
     p_keepNext := p_keepNext p;
     p_keepLines := p_keepLines p;
     p_widowControl := p_widowControl p;
     p_numbering := p_numbering p;
     p_children := p_children p |}.

Definition erase_title_spacing (blocks : list Paragraph) : list Paragraph :=
  map erase_spacing (take 5 blocks) ++ drop 5 blocks.

Definition erase_title_layout (d : Document) : Document :=
  {| d_numbering := d_numbering d;
     d_default_font := d_default_font d;
     d_default_size := d_default_size d;
     d_sections :=
       map (fun s =>
              {| ds_page := ds_page s;
                 ds_header := ds_header s;
                 ds_footer := ds_footer s;
                 ds_children := erase_title_spacing (ds_children s) |})
           (d_sections (erase_geometry d)) |}.

(** [round (w * 466 / 2000)] in exact arithmetic, ties going up. *)
Definition round_logo_height (w : Z) : Z :=
  (2 * (w * 466) + 2000) `div` (2 * 2000).

(** A section with nothing but a heading. *)
Definition bare_section (h : string) : ArticleSection :=
  {| heading := h; paragraphs := None; bullets := None; after := None;
     bullets2 := None; after2 := None |}.

(** A world whose only file is the logo. *)
Definition logo_only (E : Engine) (data : Buffer) : World :=
  {| files := {[ e_LOGO_PATH E := data ]}; console := [] |}.

(** The example section of the template's instructions, with its
    bullets and its paragraph after them. *)
Definition example_section : ArticleSection :=
  {| heading := "Section title";
     paragraphs :=
       Some [ [ {| text := "First paragraph text.";
                   bold := None; italics := None |} ];
              [ {| text := "Second paragraph with ";
                   bold := None; italics := None |};
                {| text := "bold word"; bold := Some true; italics := None |};
                {| text := " in it."; bold := None; italics := None |} ] ];
     bullets := Some [ "Bullet one"; "Bullet two" ];
     after :=
       Some [ [ {| text := "Paragraph after the bullets.";
                   bold := None; italics := None |} ] ];
     bullets2 := None;
     after2 := None |}.

(** A world without any file. *)
Definition empty_world : World := {| files := ∅; console := [] |}.

(** The blocks a run of a script has bound to [children], and the
    document it has built. *)
Definition blocks_built (r : Completion * World * Globals)
  : option (list Paragraph) := g_children r.2.

Definition doc_built (r : Completion * World * Globals) : option Document :=
  g_doc r.2.

Definition world_after (r : Completion * World * Globals) : World := r.1.2.

Definition completion (r : Completion * World * Globals) : Completion :=
  r.1.1.

(** The texts a block shows, and the texts a section and its optional
    lists hold, in reading order. *)
Definition block_texts (p : Paragraph) : list string :=
  map r_text (text_runs p).

Definition span_texts (field : option (list (list Span))) : list string :=
  match field with
  | Some ps => flat_map (map text) ps
  | None => []
  end.

Definition bullet_texts (field : option (list string)) : list string :=
  match field with
  | Some bs => bs
  | None => []
  end.

Definition section_texts (sec : ArticleSection) : list string :=
  heading sec
    :: span_texts (paragraphs sec)
    ++ bullet_texts (bullets sec)
    ++ span_texts (after sec)
    ++ bullet_texts (bullets2 sec)
    ++ span_texts (after2 sec).

(** The number of entries of an optional list. *)
Definition entries {A} (field : option (list A)) : nat :=
  match field with
  | Some xs => length xs
  | None => 0%nat
  end.

(** The number of blocks a section stands for. *)
Definition section_size (sec : ArticleSection) : nat :=
  (1 + entries (paragraphs sec) + entries (bullets sec)
   + (present (after sec) + entries (after sec))
   + entries (bullets2 sec)
   + (present (after2 sec) + entries (after2 sec)))%nat.

(** The images of a block. *)
Definition image_runs (p : Paragraph) : list ImageRunOptions :=
  flat_map (fun r => match r with ImageRun o => [o] | TextRun _ => [] end)
           (p_children p).

(** Whether the numbering definitions of a document hold the reference
    and level a block asks for. *)
Definition numbering_defined (d : Document) (n : NumberingRef) : bool :=
  existsb (fun cfg =>
             String.eqb (nc_reference cfg) (n_reference n)
             && existsb (fun l => l_level l =? n_level n) (nc_levels cfg))
          (d_numbering d).

(** A content with its sections replaced. *)
Definition with_sections (content : Content) (secs : list ArticleSection)
  : Content :=
  {| title := title content; subtitle := subtitle content;
     author := author content; sections := secs |}.

(** What a body run shows of its span: the text, the two flags as
    booleans, and the fixed size and colour. *)
Definition run_of_span (size : Z) (color : string) (s : Span) (r : Run)
  : Prop :=
  exists o,
    r = TextRun o
    /\ r_text o = text s
    /\ r_bold o = Some (JS.truthy (bold s))
    /\ r_italics o = Some (JS.truthy (italics s))
    /\ r_size o = size
    /\ r_color o = color.


(** The number of spacers a section asks for. *)
Definition spacers_wanted (sec : ArticleSection) : nat :=
  (present (after sec) + present (after2 sec))%nat.

(** A section whose five optional lists are all present and empty. *)
Definition empty_lists_section (h : string) : ArticleSection :=
  {| heading := h; paragraphs := Some []; bullets := Some [];
     after := Some []; bullets2 := Some []; after2 := Some [] |}.

(** ** Array loops *)

Lemma forEach_push {A B} (f : A -> B) (xs : list A) (parts : list B) :
  JS.forEach xs (fun x parts => JS.push parts (f x)) parts
  = parts ++ map f xs.
Proof.
  unfold JS.forEach, JS.push.
  revert parts; induction xs as [|x xs IH]; intros parts; simpl.
  - by rewrite app_nil_r.
  - by rewrite IH, <- app_assoc.
Qed.

Lemma forEach_push_spread {A B} (f : A -> list B) (xs : list A) (arr : list B) :
  JS.forEach xs (fun x arr => JS.push_spread arr (f x)) arr
  = arr ++ flat_map f xs.
Proof.
  unfold JS.forEach, JS.push_spread.
  revert arr; induction xs as [|x xs IH]; intros arr; simpl.
  - by rewrite app_nil_r.
  - by rewrite IH, <- app_assoc.
Qed.

(** ** Both scripts share the builders *)

Lemma bodyP_shared : Mobile.bodyP = A4.bodyP.
Proof. reflexivity. Qed.

Lemma bulletP_shared : Mobile.bulletP = A4.bulletP.
Proof. reflexivity. Qed.

Lemma sectionHeading_shared : Mobile.sectionHeading = A4.sectionHeading.
Proof. reflexivity. Qed.

Lemma spacer_shared : Mobile.spacer = A4.spacer.
Proof. reflexivity. Qed.

Lemma buildSection_shared : Mobile.buildSection = A4.buildSection.
Proof. reflexivity. Qed.

(** ** [buildSection] lays a section out in the fixed order *)

Lemma A4_buildSection_layout sec :
  A4.buildSection sec = section_layout (engine Wide) sec.
Proof.
  unfold A4.buildSection, section_layout, spacer_then, blocks_of; simpl.
  destruct (paragraphs sec), (bullets sec), (after sec), (bullets2 sec),
    (after2 sec);
    rewrite ?forEach_push; unfold JS.push; simpl;
    rewrite <- ?app_assoc; simpl; rewrite ?app_nil_r; try reflexivity.
Qed.

Lemma buildSection_layout ps sec :
  e_buildSection (engine ps) sec = section_layout (engine ps) sec.
Proof.
  destruct ps; simpl.
  - apply A4_buildSection_layout.
  - rewrite buildSection_shared. apply A4_buildSection_layout.
Qed.

Lemma children_split ps logoData content :
  e_children (engine ps) logoData content
  = e_children_init (engine ps) logoData content
      ++ flat_map (e_buildSection (engine ps)) (sections content).
Proof.
  destruct ps; exact (forEach_push_spread _ _ _).
Qed.

(** ** Counting blocks by kind *)

Lemma count_kind_app k xs ys :
  count_kind k (xs ++ ys) = (count_kind k xs + count_kind k ys)%nat.
Proof. unfold count_kind. by rewrite filter_app, length_app. Qed.

Lemma count_kind_cons k p xs :
  count_kind k (p :: xs)
  = ((if decide (block_kind p = k) then 1 else 0) + count_kind k xs)%nat.
Proof.
  unfold count_kind. rewrite filter_cons.
  destruct (decide (block_kind p = k)); reflexivity.
Qed.

Lemma count_kind_map {A} (f : A -> Paragraph) k k' (xs : list A) :
  (forall x, block_kind (f x) = k') ->
  count_kind k (map f xs) = if decide (k' = k) then length xs else 0%nat.
Proof.
  intros Hk. induction xs as [|x xs IH]; simpl.
  - by destruct (decide (k' = k)).
  - rewrite count_kind_cons, IH, Hk.
    by destruct (decide (k' = k)).
Qed.

Lemma kind_bodyP ps spans : block_kind (e_bodyP (engine ps) spans) = Body.
Proof. by destruct ps. Qed.

Lemma kind_bulletP ps b : block_kind (e_bulletP (engine ps) b) = Bullet.
Proof. by destruct ps. Qed.

Lemma kind_sectionHeading ps h :
  block_kind (e_sectionHeading (engine ps) h) = Heading.
Proof. by destruct ps. Qed.

Lemma kind_spacer ps n : block_kind (e_spacer (engine ps) n) = Spacer.
Proof. by destruct ps. Qed.

Lemma count_kind_blocks_of {A} (f : A -> Paragraph) k k' field :
  (forall x, block_kind (f x) = k') ->
  count_kind k (blocks_of f field)
  = if decide (k' = k) then from_option length 0%nat field else 0%nat.
Proof.
  intros Hk. destruct field as [xs|]; simpl.
  - by apply count_kind_map.
  - by destruct (decide (k' = k)).
Qed.

Lemma count_kind_spacer_then ps k field :
  count_kind k (spacer_then (engine ps) field)
  = ((if decide (Spacer = k) then present field else 0)
     + (if decide (Body = k) then from_option length 0 field else 0))%nat.
Proof.
  destruct field as [xs|]; simpl.
  - rewrite count_kind_cons, kind_spacer,
      (count_kind_map _ _ Body) by apply kind_bodyP.
    reflexivity.
  - by destruct (decide (Spacer = k)), (decide (Body = k)).
Qed.

Lemma count_kind_section ps k sec :
  count_kind k (section_layout (engine ps) sec)
  = ((if decide (Heading = k) then 1 else 0)
     + (if decide (Body = k)
        then from_option length 0 (paragraphs sec)
             + from_option length 0 (after sec)
             + from_option length 0 (after2 sec)
        else 0)
     + (if decide (Bullet = k)
        then from_option length 0 (bullets sec)
             + from_option length 0 (bullets2 sec)
        else 0)
     + (if decide (Spacer = k)
        then present (after sec) + present (after2 sec)
        else 0))%nat.
Proof.
  unfold section_layout.
  rewrite count_kind_cons, !count_kind_app, kind_sectionHeading.
  rewrite !(count_kind_blocks_of _ _ Body) by apply kind_bodyP.
  rewrite !(count_kind_blocks_of _ _ Bullet) by apply kind_bulletP.
  rewrite !count_kind_spacer_then.
  destruct (decide (Heading = k)), (decide (Body = k)),
    (decide (Bullet = k)), (decide (Spacer = k)); subst; try done; lia.
Qed.

Lemma count_kind_sections ps k (secs : list ArticleSection) :
  k <> Body -> k <> Bullet -> k <> Spacer ->
  count_kind k (flat_map (e_buildSection (engine ps)) secs)
  = if decide (Heading = k) then length secs else 0%nat.
Proof.
  intros Hb Hl Hs. induction secs as [|sec secs IH]; simpl.
  - by destruct (decide (Heading = k)).
  - rewrite count_kind_app, IH, buildSection_layout, count_kind_section.
    destruct (decide (Heading = k)), (decide (Body = k)),
      (decide (Bullet = k)), (decide (Spacer = k)); subst; try done; lia.
Qed.

Lemma kinds_children_init ps logoData content :
  map block_kind (e_children_init (engine ps) logoData content)
  = [Logo; Title; Subtitle; Rule; Author].
Proof. by destruct ps. Qed.

(** ** The block sequence *)

(** C1: for every content with N sections, in both presets, the block
    sequence is the title block -- logo, then exactly one title, one
    subtitle, one rule and one author line -- followed by N heading
    blocks, each immediately followed by the paragraphs, bullets, spacer
    and after blocks of its section in the fixed order of
    [section_layout]. *)
Theorem block_sequence ps logoData content :
  let E := engine ps in
  let blocks := e_children E logoData content in
  blocks = e_children_init E logoData content
             ++ flat_map (section_layout E) (sections content)
  /\ map block_kind (e_children_init E logoData content)
     = [Logo; Title; Subtitle; Rule; Author]
  /\ map (fun p => map r_text (text_runs p))
         (e_children_init E logoData content)
     = [[]; [title content]; [subtitle content]; [];
        ["by " +:+ author content]]
  /\ count_kind Logo blocks = 1%nat
  /\ count_kind Title blocks = 1%nat
  /\ count_kind Subtitle blocks = 1%nat
  /\ count_kind Rule blocks = 1%nat
  /\ count_kind Author blocks = 1%nat
  /\ count_kind Heading blocks = length (sections content).
Proof.
  intros E blocks. subst blocks E.
  split; [|split; [|split]].
  - rewrite children_split. f_equal.
    apply flat_map_ext. intros sec. apply buildSection_layout.
  - apply kinds_children_init.
  - by destruct ps.
  - rewrite children_split, !count_kind_app, !count_kind_sections by done.
    destruct ps; repeat split; reflexivity.
Qed.

(** C6: with an empty sections list, in both presets, the block sequence
    is exactly the title block -- logo, title, subtitle, rule, author
    line -- and holds no heading, body, bullet or spacer block. *)
Theorem no_sections_title_block_only ps logoData t s a :
  let E := engine ps in
  let content := {| title := t; subtitle := s; author := a; sections := [] |} in
  let blocks := e_children E logoData content in
  blocks = e_children_init E logoData content
  /\ map block_kind blocks = [Logo; Title; Subtitle; Rule; Author]
  /\ length blocks = 5%nat
  /\ count_kind Heading blocks = 0%nat
  /\ count_kind Body blocks = 0%nat
  /\ count_kind Bullet blocks = 0%nat
  /\ count_kind Spacer blocks = 0%nat.
Proof. destruct ps; repeat split; reflexivity. Qed.

(** C5: in both presets a section yields one spacer per [after] /
    [after2] list it has and none otherwise, each spacer sitting right
    before the paragraphs of its list and after the blocks that precede
    them; with bullets and after the blocks are heading, bullet items,
    one spacer, after-paragraphs, and with bullets only they are the
    heading and the bullet items. *)
Theorem spacer_placement ps sec :
  let E := engine ps in
  e_buildSection E sec
  = e_sectionHeading E (heading sec)
      :: blocks_of (e_bodyP E) (paragraphs sec)
      ++ blocks_of (e_bulletP E) (bullets sec)
      ++ spacer_then E (after sec)
      ++ blocks_of (e_bulletP E) (bullets2 sec)
      ++ spacer_then E (after2 sec)
  /\ count_kind Spacer (e_buildSection E sec)
     = (present (after sec) + present (after2 sec))%nat
  /\ (forall h paras bs aft,
        e_buildSection E
          {| heading := h; paragraphs := paras; bullets := Some bs;
             after := Some aft; bullets2 := None; after2 := None |}
        = e_sectionHeading E h
            :: blocks_of (e_bodyP E) paras
            ++ map (e_bulletP E) bs
            ++ [e_spacer E (Some 60)]
            ++ map (e_bodyP E) aft)
  /\ (forall h paras bs,
        e_buildSection E
          {| heading := h; paragraphs := paras; bullets := Some bs;
             after := None; bullets2 := None; after2 := None |}
        = e_sectionHeading E h
            :: blocks_of (e_bodyP E) paras
            ++ map (e_bulletP E) bs).
Proof.
  intros E. subst E. split; [|split; [|split]].
  - apply buildSection_layout.
  - rewrite buildSection_layout, count_kind_section. reflexivity.
  - intros h paras bs aft. rewrite buildSection_layout.
    unfold section_layout; simpl. by rewrite !app_nil_r.
  - intros h paras bs. rewrite buildSection_layout.
    unfold section_layout; simpl. by rewrite !app_nil_r.
Qed.

(** C10: in both presets a section that has none of paragraphs,
    bullets, after, bullets2 and after2 is built without error into
    exactly one block, its heading. *)
Theorem heading_only_section ps h :
  let E := engine ps in
  e_buildSection E (bare_section h) = [e_sectionHeading E h]
  /\ length (e_buildSection E (bare_section h)) = 1%nat
  /\ map block_kind (e_buildSection E (bare_section h)) = [Heading].
Proof. destruct ps; repeat split; reflexivity. Qed.

(** ** The logo *)

(** C3: in both presets the logo display height is the display width
    times 466/2000, rounded: the scripts' binary64 computation agrees
    with the exact rounding, giving 42 for width 180 (A4) and 35 for
    width 150 (6x9). *)
Theorem logo_display_height :
  A4.LOGO_DISPLAY_H
  = JS.Math_round (JS.number A4.LOGO_DISPLAY_W * A4.LOGO_ASPECT)%float
  /\ Mobile.LOGO_DISPLAY_H
     = JS.Math_round (JS.number Mobile.LOGO_DISPLAY_W * Mobile.LOGO_ASPECT)%float
  /\ (forall ps,
        e_LOGO_DISPLAY_H (engine ps)
        = round_logo_height (e_LOGO_DISPLAY_W (engine ps)))
  /\ e_LOGO_DISPLAY_W (engine Wide) = 180
  /\ e_LOGO_DISPLAY_H (engine Wide) = 42
  /\ e_LOGO_DISPLAY_W (engine Narrow) = 150
  /\ e_LOGO_DISPLAY_H (engine Narrow) = 35.
Proof.
  repeat split; try (intros []); vm_compute; reflexivity.
Qed.

(** ** Widow and orphan control *)

Lemma widowControl_bodyP ps spans :
  p_widowControl (e_bodyP (engine ps) spans) = Some true.
Proof. by destruct ps. Qed.

Lemma widowControl_bulletP ps b :
  p_widowControl (e_bulletP (engine ps) b) = None.
Proof. by destruct ps. Qed.

Lemma Forall_blocks_of {A} (P : Paragraph -> Prop) (f : A -> Paragraph) field :
  (forall x, P (f x)) -> Forall P (blocks_of f field).
Proof.
  intros HP. destruct field as [xs|]; simpl; [|constructor].
  induction xs; simpl; constructor; auto.
Qed.

Lemma span_blocks_built ps sec :
  span_blocks (engine ps) sec ⊆ e_buildSection (engine ps) sec.
Proof.
  rewrite buildSection_layout. unfold span_blocks, section_layout.
  intros p Hp. rewrite !elem_of_app in Hp. rewrite elem_of_cons, !elem_of_app.
  destruct Hp as [Hp | [Hp | Hp]].
  - auto.
  - destruct (after sec); simpl in *; [|by apply elem_of_nil in Hp].
    right; right; right; left. by apply elem_of_cons; right.
  - destruct (after2 sec); simpl in *; [|by apply elem_of_nil in Hp].
    do 5 right. by apply elem_of_cons; right.
Qed.

(** C9, as stated, fails: the bullet list items of the example section
    carry no widow/orphan hint. *)
Lemma bullet_items_unmarked :
  ~ Forall (fun p => p_widowControl p = Some true)
      (span_blocks (engine Wide) example_section
         ++ bullet_blocks (engine Wide) example_section).
Proof.
  intros H. apply Forall_app in H as [_ H].
  apply Forall_cons in H as [H _]. discriminate H.
Qed.

(** C9, amended: in both presets every paragraph built from a section's
    paragraphs, after or after2 span lists is a block of that section
    marked with the widow/orphan-control hint; the bullet list items are
    built without the hint. *)
Theorem body_paragraphs_widow_control ps sec :
  let E := engine ps in
  Forall (fun p => p_widowControl p = Some true) (span_blocks E sec)
  /\ span_blocks E sec ⊆ e_buildSection E sec
  /\ Forall (fun p => p_widowControl p = None) (bullet_blocks E sec).
Proof.
  intros E. subst E. split; [|split].
  - unfold span_blocks. rewrite !Forall_app.
    repeat split; apply Forall_blocks_of; intros; apply widowControl_bodyP.
  - apply span_blocks_built.
  - unfold bullet_blocks. rewrite Forall_app.
    split; apply Forall_blocks_of; intros; apply widowControl_bulletP.
Qed.

(** ** Fonts *)

Ltac font_rule_run :=
  unfold font_rule; simpl;
  split; [split; intros Hrun; first [reflexivity | discriminate Hrun]
         | intros Hrun; first [reflexivity | by destruct Hrun]].

Ltac font_rule_runs :=
  unfold text_runs; simpl;
  repeat first [ apply List.Forall_nil
               | apply List.Forall_cons; [font_rule_run|] ].

Lemma font_rule_bodyP ps spans :
  Forall (font_rule (engine ps)) (text_runs (e_bodyP (engine ps) spans)).
Proof.
  assert (Hrun : forall s : Span,
    font_rule (engine ps)
      {| r_text := text s;
         r_font := if JS.truthy (bold s) then "Arial" else "Georgia";
         r_size := 22; r_color := "3A3A3A";
         r_bold := Some (JS.or (bold s) false);
         r_italics := Some (JS.or (italics s) false);
         r_characterSpacing := None |}).
  { intros s. destruct ps, (bold s) as [[|]|]; font_rule_run. }
  destruct ps; unfold text_runs; simpl;
    induction spans as [|s spans IH]; simpl; constructor; auto; apply Hrun.
Qed.

Lemma font_rule_bulletP ps b :
  Forall (font_rule (engine ps)) (text_runs (e_bulletP (engine ps) b)).
Proof. destruct ps; font_rule_runs. Qed.

Lemma font_rule_sectionHeading ps h :
  Forall (font_rule (engine ps)) (text_runs (e_sectionHeading (engine ps) h)).
Proof. destruct ps; font_rule_runs. Qed.

Lemma font_rule_blocks_of {A} ps (f : A -> Paragraph) field :
  (forall x, Forall (font_rule (engine ps)) (text_runs (f x))) ->
  Forall (font_rule (engine ps)) (flat_map text_runs (blocks_of f field)).
Proof.
  intros Hf. destruct field as [xs|]; simpl; [|constructor].
  induction xs; simpl; [constructor|]. apply Forall_app; auto.
Qed.

Lemma font_rule_spacer_then ps field :
  Forall (font_rule (engine ps))
         (flat_map text_runs (spacer_then (engine ps) field)).
Proof.
  destruct field as [xs|]; simpl; [|constructor].
  apply Forall_app; split.
  - destruct ps; font_rule_runs.
  - apply (font_rule_blocks_of ps _ (Some xs)), font_rule_bodyP.
Qed.

Lemma font_rule_section ps sec :
  Forall (font_rule (engine ps))
         (flat_map text_runs (e_buildSection (engine ps) sec)).
Proof.
  rewrite buildSection_layout. unfold section_layout. simpl.
  rewrite !flat_map_app, !Forall_app.
  repeat split;
    auto using font_rule_sectionHeading, font_rule_spacer_then,
      font_rule_blocks_of, font_rule_bodyP, font_rule_bulletP.
Qed.

Lemma font_rule_children_init ps logoData content :
  Forall (font_rule (engine ps))
         (flat_map text_runs (e_children_init (engine ps) logoData content)).
Proof. destruct ps; font_rule_runs. Qed.

Lemma font_rule_children ps logoData content :
  Forall (font_rule (engine ps))
         (flat_map text_runs (e_children (engine ps) logoData content)).
Proof.
  rewrite children_split, flat_map_app, Forall_app. split.
  - apply font_rule_children_init.
  - induction (sections content) as [|sec secs IH]; simpl; [constructor|].
    rewrite flat_map_app, Forall_app. split; [apply font_rule_section | apply IH].
Qed.

(** C2, as stated, fails: the header label of the document is set in the
    heading font without the bold flag. *)
Lemma header_run_breaks_font_rule :
  ~ Forall (font_rule (engine Wide))
      (doc_text_runs (A4.doc (A4.children [] A4.content))).
Proof.
  intros H. apply Forall_cons in H as [[[H _] _] _].
  discriminate (H eq_refl).
Qed.

(** C2, amended: in both presets every text run of the block sequence
    (title, subtitle, author, headings, body spans, bullets) and of the
    footer has the heading font exactly when its bold flag is true and
    the body font otherwise; the header label is the one run set in the
    heading font with no bold flag. *)
Theorem fonts_follow_bold ps logoData content :
  let E := engine ps in
  let blocks := e_children E logoData content in
  doc_text_runs (e_doc E blocks)
  = flat_map text_runs (e_header E)
      ++ flat_map text_runs (e_footer E)
      ++ flat_map text_runs blocks
  /\ Forall (font_rule E) (flat_map text_runs blocks)
  /\ Forall (font_rule E) (flat_map text_runs (e_footer E))
  /\ map (fun r => (r_text r, r_font r, r_bold r))
         (flat_map text_runs (e_header E))
     = [("SKYETRAIN", e_heading_font E, None)].
Proof.
  intros E blocks. subst E blocks. split; [|split; [|split]].
  - destruct ps; unfold doc_text_runs; simpl; by rewrite app_nil_r.
  - apply font_rule_children.
  - destruct ps; font_rule_runs.
  - by destruct ps.
Qed.

(** ** The two presets compared *)

(** C4, as stated, fails: with the geometry values (page size, margins,
    logo display size) forgotten, the documents the two scripts build
    from the sample content still differ, in the spacing of the title
    block. *)
Lemma presets_differ_beyond_geometry :
  erase_geometry (A4.doc (A4.children [] A4.content))
  <> erase_geometry (Mobile.doc (Mobile.children [] A4.content)).
Proof.
  intros H.
  apply (f_equal (fun d =>
    map (fun s => map p_spacing (take 5 (ds_children s))) (d_sections d))) in H.
  vm_compute in H. discriminate H.
Qed.

(** C4, amended: the two presets differ only in page dimensions,
    margins, logo display size and the spacing of the five title-block
    paragraphs (among them the token [SPACING.titleBlockEnd], 480
    against 400).  Palette, fonts, sizes and the other spacing tokens
    are equal, the section builders, header and footer are the same, and
    the documents built from the same content are equal once those
    values are forgotten. *)
Theorem presets_differ_in_layout_only logoData content :
  erase_title_layout (A4.doc (A4.children logoData content))
  = erase_title_layout (Mobile.doc (Mobile.children logoData content))
  /\ (A4.PALETTE.text, A4.PALETTE.subtitle, A4.PALETTE.heading,
      A4.PALETTE.accentBlue, A4.PALETTE.accentRed)
     = (Mobile.PALETTE.text, Mobile.PALETTE.subtitle, Mobile.PALETTE.heading,
        Mobile.PALETTE.accentBlue, Mobile.PALETTE.accentRed)
  /\ (A4.FONTS.body, A4.FONTS.heading)
     = (Mobile.FONTS.body, Mobile.FONTS.heading)
  /\ (A4.SIZES.body, A4.SIZES.heading, A4.SIZES.title, A4.SIZES.subtitle,
      A4.SIZES.meta)
     = (Mobile.SIZES.body, Mobile.SIZES.heading, Mobile.SIZES.title,
        Mobile.SIZES.subtitle, Mobile.SIZES.meta)
  /\ (A4.SPACING.bodyAfter, A4.SPACING.bodyLine, A4.SPACING.bulletAfter,
      A4.SPACING.sectionBefore, A4.SPACING.sectionAfter)
     = (Mobile.SPACING.bodyAfter, Mobile.SPACING.bodyLine,
        Mobile.SPACING.bulletAfter, Mobile.SPACING.sectionBefore,
        Mobile.SPACING.sectionAfter)
  /\ (A4.SPACING.titleBlockEnd, Mobile.SPACING.titleBlockEnd) = (480, 400)
  /\ A4.buildSection = Mobile.buildSection
  /\ A4.header = Mobile.header
  /\ A4.footer = Mobile.footer.
Proof.
  split; [|repeat split].
  rewrite (children_split Wide), (children_split Narrow).
  cbn [engine e_children_init e_buildSection].
  rewrite buildSection_shared.
  generalize (flat_map A4.buildSection (sections content)). intros rest.
  unfold erase_title_layout, erase_geometry, erase_title_spacing. simpl.
  reflexivity.
Qed.

(** ** Running the scripts *)

Lemma paths_distinct ps : e_OUTPUT_PATH (engine ps) <> e_LOGO_PATH (engine ps).
Proof. by destruct ps. Qed.

Lemma exec_throw st rest w g e w' g' :
  st w g = (Throw e, w', g') -> exec (st :: rest) w g = (Throw e, w', g').
Proof. intros H. simpl. by rewrite H. Qed.

Lemma run_without_logo ps toBuffer content w :
  files w !! e_LOGO_PATH (engine ps) = None ->
  e_run (engine ps) toBuffer content w
  = (Throw (ENOENT (e_LOGO_PATH (engine ps))), w, no_globals).
Proof.
  intros Hlogo. destruct ps; cbn [engine e_LOGO_PATH e_run] in *.
  - apply exec_throw. unfold A4.read_logo, readFileSync. by rewrite Hlogo.
  - apply exec_throw. unfold Mobile.read_logo, readFileSync. by rewrite Hlogo.
Qed.

Lemma run_with_logo ps toBuffer content w data :
  files w !! e_LOGO_PATH (engine ps) = Some data ->
  let E := engine ps in
  let blocks := e_children E data content in
  e_run E toBuffer content w
  = (Normal,
     console_log ("Created: " +:+ e_OUTPUT_PATH E)
       (writeFileSync (e_OUTPUT_PATH E) (toBuffer (e_doc E blocks)) w),
     {| g_logoData := Some data;
        g_children := Some blocks;
        g_doc := Some (e_doc E blocks) |}).
Proof.
  intros Hlogo E blocks. subst E blocks.
  destruct ps; cbn [engine e_LOGO_PATH e_OUTPUT_PATH e_run e_doc e_children] in *.
  - unfold A4.run, A4.script. cbn [exec].
    unfold A4.read_logo at 1, readFileSync. rewrite Hlogo. reflexivity.
  - unfold Mobile.run, Mobile.script. cbn [exec].
    unfold Mobile.read_logo at 1, readFileSync. rewrite Hlogo. reflexivity.
Qed.

(** C8: in both presets, when the logo file cannot be read the script
    ends with the thrown error at its first statement: [children] and
    [doc] are never bound, so no block has been built, and nothing is
    written or logged. *)
Theorem logo_failure_is_fatal ps toBuffer content w :
  let E := engine ps in
  files w !! e_LOGO_PATH E = None ->
  let r := e_run E toBuffer content w in
  completion r = Throw (ENOENT (e_LOGO_PATH E))
  /\ blocks_built r = None
  /\ doc_built r = None
  /\ world_after r = w.
Proof.
  intros E Hlogo r. subst r E.
  rewrite run_without_logo by done. repeat split.
Qed.

Lemma logo_failure_is_fatal_witness :
  let r := e_run (engine Wide) (fun _ => []) A4.content empty_world in
  completion r = Throw (ENOENT A4.LOGO_PATH)
  /\ blocks_built r = None
  /\ doc_built r = None
  /\ world_after r = empty_world.
Proof.
  apply (logo_failure_is_fatal Wide (fun _ => []) A4.content empty_world).
  reflexivity.
Defined.

(** C7: in both presets the blocks and the document a run builds are a
    function of the content and the logo bytes alone: runs from any two
    worlds holding the same logo build the same block sequence
    [children logoData content], and so does a second run started in the
    world the first one left behind. *)
Theorem rendering_deterministic ps toBuffer content w w' data :
  let E := engine ps in
  files w !! e_LOGO_PATH E = Some data ->
  files w' !! e_LOGO_PATH E = Some data ->
  let first := e_run E toBuffer content w in
  let other := e_run E toBuffer content w' in
  let second := e_run E toBuffer content (world_after first) in
  completion first = Normal
  /\ blocks_built first = Some (e_children E data content)
  /\ blocks_built other = blocks_built first
  /\ doc_built other = doc_built first
  /\ completion second = Normal
  /\ blocks_built second = blocks_built first
  /\ doc_built second = doc_built first.
Proof.
  intros E Hw Hw' first other second. subst first other second.
  pose proof (run_with_logo ps toBuffer content w data Hw) as H1.
  pose proof (run_with_logo ps toBuffer content w' data Hw') as H2.
  cbv zeta in H1, H2. fold E in H1, H2. rewrite H1, H2.
  assert (Hw1 : files (world_after
            (Normal,
             console_log ("Created: " +:+ e_OUTPUT_PATH E)
               (writeFileSync (e_OUTPUT_PATH E)
                  (toBuffer (e_doc E (e_children E data content))) w),
             {| g_logoData := Some data;
                g_children := Some (e_children E data content);
                g_doc := Some (e_doc E (e_children E data content)) |}))
          !! e_LOGO_PATH E = Some data).
  { unfold world_after, console_log, writeFileSync; simpl.
    rewrite lookup_insert_ne by apply paths_distinct. exact Hw. }
  pose proof (run_with_logo ps toBuffer content _ data Hw1) as H3.
  cbv zeta in H3. fold E in H3. rewrite H3.
  repeat split.
Qed.

Lemma rendering_deterministic_witness :
  let E := engine Wide in
  let w := logo_only E [] in
  let first := e_run E (fun _ => []) A4.content w in
  let second := e_run E (fun _ => []) A4.content (world_after first) in
  completion first = Normal
  /\ blocks_built first = Some (A4.children [] A4.content)
  /\ blocks_built first = blocks_built first
  /\ doc_built first = doc_built first
  /\ completion second = Normal
  /\ blocks_built second = blocks_built first
  /\ doc_built second = doc_built first.
Proof.
  apply (rendering_deterministic Wide (fun _ => []) A4.content
           (logo_only (engine Wide) []) (logo_only (engine Wide) []) []);
    reflexivity.
Defined.

(** ** Properties of every block of the sequence *)

Lemma Forall_section_layout ps (P : Paragraph -> Prop) sec :
  P (e_sectionHeading (engine ps) (heading sec)) ->
  (forall spans, P (e_bodyP (engine ps) spans)) ->
  (forall b, P (e_bulletP (engine ps) b)) ->
  P (e_spacer (engine ps) (Some 60)) ->
  Forall P (section_layout (engine ps) sec).
Proof.
  intros Hh Hp Hb Hs. unfold section_layout, spacer_then.
  apply List.Forall_cons; [done|].
  rewrite !Forall_app. repeat split.
  - by apply Forall_blocks_of.
  - by apply Forall_blocks_of.
  - destruct (after sec) as [xs|]; [|constructor].
    apply List.Forall_cons; [done|].
    by apply (Forall_blocks_of P _ (Some xs)).
  - by apply Forall_blocks_of.
  - destruct (after2 sec) as [xs|]; [|constructor].
    apply List.Forall_cons; [done|].
    by apply (Forall_blocks_of P _ (Some xs)).
Qed.

Lemma Forall_children ps (P : Paragraph -> Prop) logoData content :
  Forall P (e_children_init (engine ps) logoData content) ->
  Forall (fun sec => Forall P (section_layout (engine ps) sec))
         (sections content) ->
  Forall P (e_children (engine ps) logoData content).
Proof.
  intros Hinit Hsecs. rewrite children_split, Forall_app. split; [done|].
  induction Hsecs as [|sec secs Hsec _ IH]; simpl; [constructor|].
  rewrite Forall_app, buildSection_layout. by split.
Qed.

Lemma flat_map_nil {A B} (f : A -> list B) (xs : list A) :
  Forall (fun x => f x = []) xs -> flat_map f xs = [].
Proof.
  induction 1 as [|x xs Hx _ IH]; simpl; [done|]. by rewrite Hx, IH.
Qed.

(** ** Texts *)

Lemma block_texts_bodyP ps spans :
  block_texts (e_bodyP (engine ps) spans) = map text spans.
Proof.
  destruct ps; unfold block_texts, text_runs; simpl;
    induction spans as [|s spans IH]; simpl; by f_equal.
Qed.

Lemma texts_body_blocks ps field :
  flat_map block_texts (blocks_of (e_bodyP (engine ps)) field)
  = span_texts field.
Proof.
  destruct field as [xs|]; simpl; [|done].
  induction xs as [|spans xs IH]; simpl; [done|].
  by rewrite block_texts_bodyP, IH.
Qed.

Lemma texts_bullet_blocks ps field :
  flat_map block_texts (blocks_of (e_bulletP (engine ps)) field)
  = bullet_texts field.
Proof.
  destruct field as [xs|]; simpl; [|done].
  induction xs as [|b xs IH]; simpl; [done|].
  rewrite IH. by destruct ps.
Qed.

Lemma texts_spacer_then ps field :
  flat_map block_texts (spacer_then (engine ps) field) = span_texts field.
Proof.
  destruct field as [xs|]; [|done].
  change (spacer_then (engine ps) (Some xs))
    with (e_spacer (engine ps) (Some 60)
            :: blocks_of (e_bodyP (engine ps)) (Some xs)).
  cbn [flat_map]. rewrite texts_body_blocks. by destruct ps.
Qed.

Lemma texts_section ps sec :
  flat_map block_texts (e_buildSection (engine ps) sec) = section_texts sec.
Proof.
  rewrite buildSection_layout. unfold section_layout, section_texts.
  cbn [flat_map]. rewrite !flat_map_app.
  rewrite !texts_body_blocks, !texts_bullet_blocks, !texts_spacer_then.
  by destruct ps.
Qed.

(** X1: in both presets the texts the block sequence shows, block by
    block and run by run, are the title, the subtitle, the author
    preceded by "by ", and then for every section its heading, the span
    texts of its paragraphs, its bullets, the span texts of after, the
    second bullets and the span texts of after2: nothing is dropped,
    repeated or reordered, and logo, rule and spacers show no text. *)
Theorem texts_preserved ps logoData content :
  flat_map block_texts (e_children (engine ps) logoData content)
  = [title content; subtitle content; "by " +:+ author content]
      ++ flat_map section_texts (sections content).
Proof.
  rewrite children_split, flat_map_app. f_equal.
  - by destruct ps.
  - induction (sections content) as [|sec secs IH]; simpl; [done|].
    by rewrite flat_map_app, texts_section, IH.
Qed.

(** X2: a body paragraph has one text run per span, in order, and no
    other child; the run carries the span's text, a bold and an italics
    flag that are always booleans -- true exactly when the span's own
    flag is true, each independently of the other -- and the body size
    and text colour whatever the span says. *)
Theorem body_runs_follow_spans spans :
  Forall2 (run_of_span A4.SIZES.body A4.PALETTE.text)
          spans (p_children (A4.bodyP spans))
  /\ Forall2 (run_of_span Mobile.SIZES.body Mobile.PALETTE.text)
             spans (p_children (Mobile.bodyP spans)).
Proof.
  assert (Hor : forall v, JS.or v false = JS.truthy v).
  { intros v. unfold JS.or. by destruct (JS.truthy v). }
  split; simpl; induction spans as [|s spans IH]; simpl; constructor;
    try done; eexists; repeat split; simpl; by rewrite ?Hor.
Qed.

(** ** Size of the sequence *)

Lemma length_blocks_of {A} (f : A -> Paragraph) field :
  length (blocks_of f field) = entries field.
Proof. destruct field; simpl; [apply length_map | done]. Qed.

Lemma length_spacer_then ps field :
  length (spacer_then (engine ps) field)
  = (present field + entries field)%nat.
Proof. destruct field; simpl; [by rewrite length_map | done]. Qed.

Lemma length_buildSection ps sec :
  length (e_buildSection (engine ps) sec) = section_size sec.
Proof.
  rewrite buildSection_layout. unfold section_layout, section_size.
  cbn [length]. rewrite !length_app, !length_blocks_of, !length_spacer_then.
  lia.
Qed.

(** X3: in both presets the block sequence has five blocks for the title
    block plus, for every section, one heading, one block per paragraph
    and per bullet, and for each of after and after2 that is present one
    spacer and one block per paragraph. *)
Theorem block_count ps logoData content :
  length (e_children (engine ps) logoData content)
  = (5 + sum_list (map section_size (sections content)))%nat.
Proof.
  rewrite children_split, length_app.
  replace (length (e_children_init (engine ps) logoData content))
    with 5%nat by by destruct ps.
  f_equal. induction (sections content) as [|sec secs IH]; simpl; [done|].
  by rewrite length_app, length_buildSection, IH.
Qed.

(** ** Headings stay with what follows *)

(** X4: in both presets a block of the sequence asks to be kept with the
    next block exactly when it is the heading block of one of the
    content's sections; keepLines is set on the same blocks, and every
    section's heading block is in the sequence. *)
Theorem keep_next_marks_headings ps logoData content :
  let E := engine ps in
  let blocks := e_children E logoData content in
  Forall (fun p =>
            (p_keepNext p = Some true <->
             exists sec, sec ∈ sections content
                         /\ p = e_sectionHeading E (heading sec))
            /\ p_keepLines p = p_keepNext p) blocks
  /\ Forall (fun sec => e_sectionHeading E (heading sec) ∈ blocks)
            (sections content).
Proof.
  intros E blocks. subst E blocks.
  assert (Hno : forall p : Paragraph,
            p_keepNext p = None -> p_keepLines p = None ->
            (p_keepNext p = Some true <->
             exists sec, sec ∈ sections content
                         /\ p = e_sectionHeading (engine ps) (heading sec))
            /\ p_keepLines p = p_keepNext p).
  { intros p Hn Hl. split; [|congruence]. split.
    - rewrite Hn. discriminate.
    - intros (sec & _ & ->). by destruct ps. }
  split.
  - apply Forall_children.
    + destruct ps; repeat (apply List.Forall_cons; [by apply Hno|]);
        apply List.Forall_nil.
    + apply Forall_forall. intros sec Hsec.
      apply Forall_section_layout.
      * split; [|by destruct ps]. split; [eauto | by destruct ps].
      * intros spans. apply Hno; by destruct ps.
      * intros b. apply Hno; by destruct ps.
      * apply Hno; by destruct ps.
  - apply Forall_forall. intros sec Hsec.
    rewrite children_split, elem_of_app. right.
    apply list_elem_of_In, in_flat_map. exists sec. split.
    + by apply list_elem_of_In.
    + rewrite buildSection_layout. by left.
Qed.

(** ** Bullets and the numbering definition *)

(** X5: in both presets every block of the sequence that carries a
    numbering reference refers to a reference and level that the
    document built around the sequence defines. *)
Theorem numbering_references_resolve ps logoData content :
  let E := engine ps in
  let blocks := e_children E logoData content in
  Forall (fun p =>
            match p_numbering p with
            | Some n => numbering_defined (e_doc E blocks) n = true
            | None => True
            end) blocks.
Proof.
  intros E blocks. subst E. generalize blocks at 1. subst blocks. intros bs.
  assert (Hdef : numbering_defined (e_doc (engine ps) bs)
                   {| n_reference := "mainBullets"; n_level := 0 |} = true)
    by by destruct ps.
  apply Forall_children.
  - destruct ps; repeat (apply List.Forall_cons; [done|]); apply List.Forall_nil.
  - apply Forall_forall. intros sec _.
    apply Forall_section_layout; intros; destruct ps; simpl; done.
Qed.

(** ** The logo image *)

Lemma no_image_bodyP ps spans : image_runs (e_bodyP (engine ps) spans) = [].
Proof.
  destruct ps; unfold image_runs; simpl;
    induction spans as [|s spans IH]; simpl; done.
Qed.

(** X6: in both presets the block sequence holds exactly one image, in
    its first block: the logo, with the bytes handed in as its data, the
    preset's display width and height, and type png.  No section block
    holds an image. *)
Theorem logo_is_the_only_image ps logoData content :
  let E := engine ps in
  let blocks := e_children E logoData content in
  let logo := {| i_data := logoData; i_width := e_LOGO_DISPLAY_W E;
                 i_height := e_LOGO_DISPLAY_H E; i_type := "png" |} in
  flat_map image_runs blocks = [logo]
  /\ image_runs <$> head blocks = Some [logo]
  /\ flat_map image_runs (flat_map (e_buildSection E) (sections content)) = [].
Proof.
  intros E blocks logo. subst E blocks logo.
  assert (Hsecs : flat_map image_runs
            (flat_map (e_buildSection (engine ps)) (sections content)) = []).
  { apply flat_map_nil.
    induction (sections content) as [|sec secs IH]; simpl; [constructor|].
    rewrite Forall_app, buildSection_layout. split; [|done].
    apply Forall_section_layout; intros;
      first [apply no_image_bodyP | by destruct ps]. }
  rewrite children_split, flat_map_app, Hsecs.
  destruct ps; repeat split; reflexivity.
Qed.

(** ** Sections compose *)

(** X7: in both presets the blocks of a content whose sections are
    [secs1 ++ secs2] are the blocks of the content with sections [secs1]
    followed by the blocks of [secs2]: adding sections at the end leaves
    every earlier block as it was, and what a section contributes does
    not depend on the sections before it. *)
Theorem appended_sections_append_blocks ps logoData content secs1 secs2 :
  let E := engine ps in
  e_children E logoData (with_sections content (secs1 ++ secs2))
  = e_children E logoData (with_sections content secs1)
      ++ flat_map (e_buildSection E) secs2.
Proof.
  intros E. subst E. rewrite !children_split. simpl sections.
  rewrite flat_map_app, app_assoc. by destruct ps.
Qed.

(** ** What a run leaves behind *)

(** X8: in both presets a run completes normally exactly when the logo
    file exists, and then binds [children] and [doc] to the blocks and
    the document of the logo bytes and the content; otherwise it throws
    the read error of the logo path. *)
Theorem run_outcome ps toBuffer content w :
  let E := engine ps in
  let r := e_run E toBuffer content w in
  match files w !! e_LOGO_PATH E with
  | Some data =>
      completion r = Normal
      /\ blocks_built r = Some (e_children E data content)
      /\ doc_built r = Some (e_doc E (e_children E data content))
  | None =>
      completion r = Throw (ENOENT (e_LOGO_PATH E))
      /\ blocks_built r = None
      /\ doc_built r = None
  end.
Proof.
  intros E r. subst E r.
  destruct (files w !! e_LOGO_PATH (engine ps)) as [data|] eqn:Hlogo.
  - by rewrite (run_with_logo ps toBuffer content w data Hlogo).
  - by rewrite run_without_logo.
Qed.

(** X9: in both presets, when the logo file exists a run writes the
    serialized document to the output path, whatever that path held
    before, leaves every other file -- the logo among them -- as it was,
    and logs the single line "Created: " followed by the output path. *)
Theorem run_writes_only_the_output ps toBuffer content w data :
  let E := engine ps in
  files w !! e_LOGO_PATH E = Some data ->
  let w' := world_after (e_run E toBuffer content w) in
  files w' !! e_OUTPUT_PATH E
  = Some (toBuffer (e_doc E (e_children E data content)))
  /\ delete (e_OUTPUT_PATH E) (files w') = delete (e_OUTPUT_PATH E) (files w)
  /\ files w' !! e_LOGO_PATH E = Some data
  /\ console w' = console w ++ ["Created: " +:+ e_OUTPUT_PATH E].
Proof.
  intros E Hlogo w'. subst w' E.
  rewrite (run_with_logo ps toBuffer content w data Hlogo).
  unfold world_after, console_log, writeFileSync; simpl.
  repeat split.
  - apply lookup_insert_eq.
  - apply delete_insert_eq.
  - rewrite lookup_insert_ne by apply paths_distinct. exact Hlogo.
Qed.

Lemma run_writes_only_the_output_witness :
  let E := engine Narrow in
  let w := logo_only E [] in
  let w' := world_after (e_run E (fun _ => []) Mobile.content w) in
  files w' !! e_OUTPUT_PATH E = Some []
  /\ delete (e_OUTPUT_PATH E) (files w') = delete (e_OUTPUT_PATH E) (files w)
  /\ files w' !! e_LOGO_PATH E = Some []
  /\ console w' = console w ++ ["Created: " +:+ e_OUTPUT_PATH E].
Proof.
  apply (run_writes_only_the_output Narrow (fun _ => []) Mobile.content
           (logo_only (engine Narrow) []) []).
  reflexivity.
Defined.


(** ** Spacers *)

Lemma no_spacer_in_map {A} (f : A -> Paragraph) k (xs : list A) :
  (forall x, block_kind (f x) = k) -> k <> Spacer ->
  filter (fun p => block_kind p = Spacer) (map f xs) = [].
Proof.
  intros Hk Hne. induction xs as [|x xs IH]; simpl; [done|].
  rewrite filter_cons_False by (rewrite Hk; done). exact IH.
Qed.

Lemma no_spacer_in_blocks_of {A} (f : A -> Paragraph) k field :
  (forall x, block_kind (f x) = k) -> k <> Spacer ->
  filter (fun p => block_kind p = Spacer) (blocks_of f field) = [].
Proof.
  intros Hk Hne. destruct field as [xs|]; simpl; [|done].
  by apply (no_spacer_in_map f k).
Qed.

Lemma spacers_of_spacer_then ps field :
  filter (fun p => block_kind p = Spacer) (spacer_then (engine ps) field)
  = replicate (present field) (e_spacer (engine ps) (Some 60)).
Proof.
  destruct field as [xs|]; simpl; [|done].
  rewrite filter_cons_True by apply kind_spacer.
  by rewrite (no_spacer_in_map _ Body) by (done || apply kind_bodyP).
Qed.

Lemma spacers_of_section ps sec :
  filter (fun p => block_kind p = Spacer) (e_buildSection (engine ps) sec)
  = replicate (spacers_wanted sec) (e_spacer (engine ps) (Some 60)).
Proof.
  rewrite buildSection_layout. unfold section_layout, spacers_wanted.
  rewrite filter_cons_False by (rewrite kind_sectionHeading; done).
  rewrite !filter_app, !spacers_of_spacer_then.
  rewrite !(no_spacer_in_blocks_of _ Body) by (done || apply kind_bodyP).
  rewrite !(no_spacer_in_blocks_of _ Bullet) by (done || apply kind_bulletP).
  simpl. by rewrite replicate_add.
Qed.

(** X11: in both presets the spacer blocks of the sequence are, for
    every section in turn, one [spacer(60)] per after / after2 list the
    section has: every spacer has 60 after it, and the spacer of the
    default argument (100) never occurs in the sequence. *)
Theorem spacers_use_sixty ps logoData content :
  let E := engine ps in
  let blocks := e_children E logoData content in
  filter (fun p => block_kind p = Spacer) blocks
  = flat_map (fun sec => replicate (spacers_wanted sec) (e_spacer E (Some 60)))
             (sections content)
  /\ e_spacer E None ∉ blocks.
Proof.
  intros E blocks. subst E blocks.
  assert (Hfilter :
    filter (fun p => block_kind p = Spacer)
           (e_children (engine ps) logoData content)
    = flat_map (fun sec => replicate (spacers_wanted sec)
                             (e_spacer (engine ps) (Some 60)))
               (sections content)).
  { rewrite children_split, filter_app.
    replace (filter (fun p => block_kind p = Spacer)
               (e_children_init (engine ps) logoData content))
      with (@nil Paragraph) by by destruct ps.
    simpl. induction (sections content) as [|sec secs IH]; simpl; [done|].
    by rewrite filter_app, spacers_of_section, IH. }
  split; [exact Hfilter|].
  intros Hin.
  assert (Hin' : e_spacer (engine ps) None
                 ∈ filter (fun p => block_kind p = Spacer)
                     (e_children (engine ps) logoData content)).
  { apply list_elem_of_filter. split; [apply kind_spacer | exact Hin]. }
  rewrite Hfilter in Hin'.
  apply list_elem_of_In, in_flat_map in Hin' as (sec & _ & Hrep).
  apply list_elem_of_In, elem_of_replicate in Hrep as [Heq _].
  destruct ps; discriminate Heq.
Qed.

(** X12: in both presets a section whose five optional lists are present
    but empty is built into its heading followed by two spacers: an
    empty after or after2 list still yields its spacer, while empty
    paragraphs and bullets yield nothing. *)
Theorem empty_lists_still_space ps h :
  let E := engine ps in
  e_buildSection E (empty_lists_section h)
  = [e_sectionHeading E h; e_spacer E (Some 60); e_spacer E (Some 60)].
Proof. by destruct ps. Qed.
